(** * todo-enoth: a shallow embedding of the to-do application

    The repository is a FastAPI application over one SQLAlchemy table:
    - [models.py] declares the mapped class [ToDo] (table [todo]);
    - [database.py] builds the engine and the session factory;
    - [main.py] holds the six request handlers.

    The table is modelled as a finite map from the primary key [id] to the
    two remaining columns.  A handler is a function from the table it finds
    to the table it leaves and its outcome: a response, or the exception
    that escapes it.  A handler that raises has not reached [db.commit()],
    so it leaves the table as it found it.  An id of a path is any integer;
    the driver binds signed 64-bit integers and raises on the others. *)

From Stdlib Require Import ZArith String.
From stdpp Require Import gmap strings list fin_maps sorting pretty.

Local Open Scope string_scope.
Local Open Scope list_scope.
Local Open Scope Z_scope.

(** ** models.py *)

Module models.

(** [class ToDo(Base)]: [id] is the integer primary key, [task] a string,
    [completed] a boolean. *)
Record ToDo : Type := mkToDo {
  id : Z;
  task : string;
  completed : bool
}.

(** [ToDo.__repr__]: the f-string with [self.id] in decimal, as [str] of
    an [int] writes it, for an object that has its key. *)
Definition __repr__ (self : ToDo) : string :=
  "<Todo " +:+ pretty (id self) +:+ ">".

End models.

(** ** database.py and the SQLAlchemy session *)

Module database.

(** The contents of table [todo]: primary key ↦ (task, completed). *)
Abbreviation Table := (gmap Z (string * bool)).

Definition row (kv : Z * (string * bool)) : models.ToDo :=
  models.mkToDo kv.1 kv.2.1 kv.2.2.

(** [db.query(models.ToDo)]: all the rows, in no particular order. *)
Definition query (db : Table) : list models.ToDo :=
  row <$> map_to_list db.

(** [.filter(models.ToDo.id == todo_id)] *)
Definition filter_id (todo_id : Z) (rows : list models.ToDo) : list models.ToDo :=
  filter (λ r, models.id r = todo_id) rows.

(** [.first()]: the first row, or [None]. *)
Definition first (rows : list models.ToDo) : option models.ToDo :=
  head rows.

(** The order of [models.ToDo.id.desc()]. *)
Definition id_desc (r1 r2 : models.ToDo) : Prop :=
  models.id r2 ≤ models.id r1.

(** Strictly descending keys. *)
Definition id_gt (r1 r2 : models.ToDo) : Prop :=
  models.id r2 < models.id r1.

#[global] Instance id_desc_dec r1 r2 : Decision (id_desc r1 r2).
Proof. unfold id_desc. apply _. Defined.

(** [.order_by(models.ToDo.id.desc())] *)
Definition order_by_id_desc (rows : list models.ToDo) : list models.ToDo :=
  merge_sort id_desc rows.

(** The integers SQLite stores, and the driver binds: signed, 64 bits. *)
Definition INT64_MIN : Z := -9223372036854775808.
Definition INT64_MAX : Z := 9223372036854775807.

Definition int64 (n : Z) : Prop := INT64_MIN ≤ n ≤ INT64_MAX.

#[global] Instance int64_dec n : Decision (int64 n).
Proof. unfold int64. apply _. Defined.

(** Whether the driver binds [todo_id] as the parameter of the SELECT of
    [.filter(models.ToDo.id == todo_id).first()].  It binds a signed 64-bit
    integer and raises [OverflowError] on any other.  The keys of a table
    are not bounded in this model (see [next_rowid]); a key that the table
    holds binds as well.  On a table with 64-bit keys only, as the engine
    has them, this is the test of the driver. *)
Definition binds (db : Table) (todo_id : Z) : bool :=
  bool_decide (int64 todo_id) || bool_decide (is_Some (db !! todo_id)).

(** The key SQLite gives to a row inserted without one into a table with an
    [INTEGER PRIMARY KEY]: one more than the largest key in use, and 1 in an
    empty table.  Keys are unbounded integers here: this is the rule of the
    engine as long as the largest key in use is below [INT64_MAX]. *)
Definition next_rowid (db : Table) : Z :=
  match (map_to_list db).*1 with
  | [] => 1
  | k :: ks => foldr Z.max k ks + 1
  end.

(** [db.add(todo); db.commit()] for [todo = models.ToDo(task=task)]: the
    INSERT assigns the key and the column default [completed=False].  The
    result is the persistent object and the table after the commit. *)
Definition add_commit (task : string) (db : Table) : models.ToDo * Table :=
  let i := next_rowid db in
  (models.mkToDo i task false, <[i := (task, false)]> db).

(** [db.commit()] with the fetched object [todo] modified: the UPDATE of
    the row whose key is [todo.id]. *)
Definition update_commit (todo : models.ToDo) (db : Table) : Table :=
  <[models.id todo := (models.task todo, models.completed todo)]> db.

(** [db.delete(todo); db.commit()] for a fetched object: the DELETE of the
    row whose key is [todo.id]. *)
Definition delete_commit (todo : models.ToDo) (db : Table) : Table :=
  delete (models.id todo) db.


End database.

(** ** main.py *)

Module main.

Import database.

(** The template context: [{"request", "todos"}] or [{"request", "todo"}]. *)
Inductive TemplateContext : Type :=
  | ctx_todos (todos : list models.ToDo)
  | ctx_todo (todo : option models.ToDo).

Inductive Response : Type :=
  | TemplateResponse (name : string) (context : TemplateContext)
  | RedirectResponse (url : string) (status_code : Z).

(** The exceptions that escape a handler. *)
Inductive Exception : Type :=
  | AttributeError          (* attribute assignment on [None] *)
  | UnmappedInstanceError   (* [db.delete(None)] *)
  | OverflowError           (* an id the driver cannot bind *)
  | NoMatchFound.           (* [url_path_for] of an unknown name *)

Inductive Outcome : Type :=
  | Return (r : Response)
  | Raise (e : Exception).

Definition HTTP_303_SEE_OTHER : Z := 303.

(** The routes in the order of their decorators: (handler name, path). *)
Definition routes : list (string * string) :=
  [ ("static", "/static");
    ("home", "/");
    ("add", "/add");
    ("complete", "/complete/{todo_id}");
    ("add", "/edit/{todo_id}");
    ("add", "/edit/{todo_id}");
    ("add", "/delete/{todo_id}") ].

(** [app.url_path_for(name)] without path parameters. *)
Definition url_path_for (name : string) : option string :=
  snd <$> head (filter (λ r, r.1 = name) routes).

(** [RedirectResponse(url=app.url_path_for("home"), status_code=...)] *)
Definition redirect_home : Outcome :=
  match url_path_for "home" with
  | Some url => Return (RedirectResponse url HTTP_303_SEE_OTHER)
  | None => Raise NoMatchFound
  end.

(** [GET /] *)
Definition home (db : Table) : Table * Outcome :=
  let todos := order_by_id_desc (query db) in
  (db, Return (TemplateResponse "index.html" (ctx_todos todos))).

(** [POST /add] with form field [task]. *)
Definition add (task : string) (db : Table) : Table * Outcome :=
  let '(todo, db') := add_commit task db in
  (db', redirect_home).

(** [GET /complete/{todo_id}] *)
Definition complete (todo_id : Z) (db : Table) : Table * Outcome :=
  if binds db todo_id then
    match first (filter_id todo_id (query db)) with
    | None => (db, Raise AttributeError)
    | Some todo =>
        let todo := models.mkToDo (models.id todo) (models.task todo) true in
        (update_commit todo db, redirect_home)
    end
  else (db, Raise OverflowError).

(** [GET /edit/{todo_id}]; the source names this handler [add] as well. *)
Definition edit_form (todo_id : Z) (db : Table) : Table * Outcome :=
  if binds db todo_id then
    let todo := first (filter_id todo_id (query db)) in
    (db, Return (TemplateResponse "edit.html" (ctx_todo todo)))
  else (db, Raise OverflowError).

(** [completed: bool = Form(False)]: the field, or [False] without it. *)
Definition Form_completed (field : option bool) : bool :=
  default false field.

(** [POST /edit/{todo_id}] with form fields [task] and [completed]; named
    [add] in the source.  The two assignments to [todo] are kept apart. *)
Definition edit_submit (todo_id : Z) (task : string) (completed : option bool)
    (db : Table) : Table * Outcome :=
  let completed := Form_completed completed in
  if binds db todo_id then
    match first (filter_id todo_id (query db)) with
    | None => (db, Raise AttributeError)
    | Some todo =>
        let todo :=
          models.mkToDo (models.id todo) task (models.completed todo) in
        let todo :=
          models.mkToDo (models.id todo) (models.task todo) completed in
        (update_commit todo db, redirect_home)
    end
  else (db, Raise OverflowError).

(** [GET /delete/{todo_id}]; named [add] in the source. *)
Definition delete_todo (todo_id : Z) (db : Table) : Table * Outcome :=
  if binds db todo_id then
    match first (filter_id todo_id (query db)) with
    | None => (db, Raise UnmappedInstanceError)
    | Some todo => (delete_commit todo db, redirect_home)
    end
  else (db, Raise OverflowError).

(** A run of Add requests, one per description: the objects created, in
    the order of their creation, and the table after the last commit. *)
Fixpoint add_all (tasks : list string) (db : Table) : list models.ToDo * Table :=
  match tasks with
  | [] => ([], db)
  | task :: tasks =>
      let '(todo, db') := add_commit task db in
      let '(todos, db'') := add_all tasks db' in
      (todo :: todos, db'')
  end.

(** The same run through the handler [add], keeping only the table. *)
Definition add_requests (tasks : list string) (db : Table) : Table :=
  foldl (λ db task, (add task db).1) db tasks.



End main.

(** ** The application: routing *)

Module app.

Import database main.

(** A request that the routing and the parsing of its parameters accept:
    one constructor for each decorated handler of [main.py]. *)
Inductive Request : Type :=
  | GET_home
  | POST_add (task : string)
  | GET_complete (todo_id : Z)
  | GET_edit (todo_id : Z)
  | POST_edit (todo_id : Z) (task : string) (completed : option bool)
  | GET_delete (todo_id : Z).

(** The handler that the method and the path select. *)
Definition handle (req : Request) (db : Table) : Table * Outcome :=
  match req with
  | GET_home => home db
  | POST_add task => add task db
  | GET_complete todo_id => complete todo_id db
  | GET_edit todo_id => edit_form todo_id db
  | POST_edit todo_id task completed => edit_submit todo_id task completed db
  | GET_delete todo_id => delete_todo todo_id db
  end.

(** The requests of a list served one after the other. *)
Definition run (reqs : list Request) (db : Table) : Table :=
  foldl (λ db req, (handle req db).1) db reqs.

(** The number of Add requests in a list. *)
Fixpoint count_add (reqs : list Request) : nat :=
  match reqs with
  | [] => 0%nat
  | POST_add _ :: reqs => S (count_add reqs)
  | _ :: reqs => count_add reqs
  end.

(** The key in the path of a request that changes a row it fetches. *)
Definition target (req : Request) : option Z :=
  match req with
  | GET_complete todo_id | POST_edit todo_id _ _ | GET_delete todo_id =>
      Some todo_id
  | _ => None
  end.

End app.

Import database main app.

Example home_two :
  home (<[2 := ("b", true)]> {[1 := ("a", false)]}) =
  (<[2 := ("b", true)]> {[1 := ("a", false)]},
   Return (TemplateResponse "index.html"
     (ctx_todos [models.mkToDo 2 "b" true; models.mkToDo 1 "a" false]))).
Proof. vm_compute. reflexivity. Qed.

(** * Properties *)

(** ** The queries *)

Section queries.

Implicit Types (db : Table) (r : models.ToDo) (i : Z).

Lemma row_id kv : models.id (row kv) = kv.1.
Proof. done. Qed.

Lemma elem_of_query db r :
  r ∈ query db ↔ db !! models.id r = Some (models.task r, models.completed r).
Proof.
  unfold query. rewrite list_elem_of_fmap. split.
  - intros [[k [t c]] [-> Hin]]. by apply elem_of_map_to_list in Hin.
  - intros Hr. exists (models.id r, (models.task r, models.completed r)).
    split; [by destruct r|]. by apply elem_of_map_to_list.
Qed.

Lemma query_ids db : models.id <$> query db = (map_to_list db).*1.
Proof. unfold query. rewrite <-list_fmap_compose. by apply list_fmap_ext. Qed.

Lemma NoDup_query_ids db : NoDup (models.id <$> query db).
Proof. rewrite query_ids. apply NoDup_fst_map_to_list. Qed.

Lemma NoDup_query db : NoDup (query db).
Proof. eapply NoDup_fmap_1, NoDup_query_ids. Qed.

Lemma query_id_inj db r1 r2 :
  r1 ∈ query db → r2 ∈ query db → models.id r1 = models.id r2 → r1 = r2.
Proof.
  rewrite !elem_of_query. intros H1 H2 E. rewrite E in H1.
  destruct r1, r2; simpl in *. congruence.
Qed.

(** The query of the handlers is the lookup of the primary key. *)
Lemma first_filter_id db i :
  first (filter_id i (query db)) =
  (λ v, models.mkToDo i v.1 v.2) <$> db !! i.
Proof.
  unfold first, filter_id.
  destruct (filter _ (query db)) as [|r l] eqn:E; simpl.
  - destruct (db !! i) as [[t c]|] eqn:Hi; [|done].
    assert (models.mkToDo i t c ∈ filter (λ r, models.id r = i) (query db)) as Hin.
    { apply list_elem_of_filter. split; [done|]. by apply elem_of_query. }
    rewrite E in Hin. by apply not_elem_of_nil in Hin.
  - assert (r ∈ filter (λ r, models.id r = i) (query db)) as Hin
      by (rewrite E; left).
    apply list_elem_of_filter in Hin as [<- Hin].
    apply elem_of_query in Hin. rewrite Hin. by destruct r.
Qed.

Lemma first_filter_id_None db i :
  db !! i = None → first (filter_id i (query db)) = None.
Proof. intros H. by rewrite first_filter_id, H. Qed.

Lemma first_filter_id_Some db i t c :
  db !! i = Some (t, c) →
  first (filter_id i (query db)) = Some (models.mkToDo i t c).
Proof. intros H. by rewrite first_filter_id, H. Qed.

End queries.

(** ** The listing order *)

Section listing.

Implicit Types (db : Table) (r : models.ToDo) (l : list models.ToDo).

#[local] Instance id_desc_total : Total id_desc.
Proof. intros r1 r2. unfold id_desc. lia. Qed.

#[local] Instance id_desc_trans : Transitive id_desc.
Proof. intros r1 r2 r3. unfold id_desc. lia. Qed.

Lemma order_by_id_desc_perm l : order_by_id_desc l ≡ₚ l.
Proof. apply merge_sort_Permutation. Qed.

Lemma order_by_id_desc_sorted l : StronglySorted id_desc (order_by_id_desc l).
Proof. apply StronglySorted_merge_sort; apply _. Qed.

Lemma sorted_strict l :
  NoDup (models.id <$> l) → StronglySorted id_desc l → StronglySorted id_gt l.
Proof.
  induction l as [|r l IH]; intros Hnd Hs; [constructor|].
  apply NoDup_cons in Hnd as [Hr Hnd].
  apply StronglySorted_cons in Hs as [Hall Hs].
  constructor; [by apply IH|].
  rewrite Forall_forall in *. intros r' Hr'.
  specialize (Hall r' Hr'). unfold id_desc, id_gt in *.
  assert (models.id r' ≠ models.id r); [|lia].
  intros E. apply Hr. rewrite <-E. apply list_elem_of_fmap. eauto.
Qed.

Lemma listing_strict db :
  StronglySorted id_gt (order_by_id_desc (query db)).
Proof.
  apply sorted_strict; [|apply order_by_id_desc_sorted].
  rewrite order_by_id_desc_perm. apply NoDup_query_ids.
Qed.

(** Two descending lists with the same rows, whose keys tell the rows
    apart, are the same list. *)
Lemma sorted_unique l1 l2 :
  NoDup (models.id <$> l1) →
  StronglySorted id_desc l1 → StronglySorted id_desc l2 →
  l1 ≡ₚ l2 → l1 = l2.
Proof.
  intros Hnd H1 H2 Hp.
  apply (StronglySorted_unique_strong id_desc); [|done..].
  intros r1 r2 Hr1 Hr2 Ha Hb. unfold id_desc in *.
  rewrite <-Hp in Hr2.
  assert (models.id r1 = models.id r2) as E by lia.
  clear -Hnd Hr1 Hr2 E.
  induction l1 as [|r l IH]; [by apply not_elem_of_nil in Hr1|].
  apply NoDup_cons in Hnd as [Hr Hnd].
  apply elem_of_cons in Hr1 as [->|Hr1], Hr2 as [->|Hr2]; [done| | |by apply IH].
  - destruct Hr. rewrite E. apply list_elem_of_fmap. eauto.
  - destruct Hr. rewrite <-E. apply list_elem_of_fmap. eauto.
Qed.

End listing.

(** ** The key of a new row *)

Section rowid.

Implicit Types (db : Table) (r : models.ToDo) (i k : Z).

Lemma foldr_max_ge (k : Z) (ks : list Z) :
  k ≤ foldr Z.max k ks ∧ ∀ k', k' ∈ ks → k' ≤ foldr Z.max k ks.
Proof.
  induction ks as [|k1 ks [IH1 IH2]]; simpl.
  - split; [lia|]. intros k' Hk'. by apply not_elem_of_nil in Hk'.
  - split; [lia|]. intros k' [->|Hk']%elem_of_cons; [lia|].
    specialize (IH2 k' Hk'). lia.
Qed.

(** The new key is above every key in use. *)
Lemma next_rowid_above db k : is_Some (db !! k) → k < next_rowid db.
Proof.
  intros [v Hk]. unfold next_rowid.
  assert (k ∈ (map_to_list db).*1) as Hin.
  { apply list_elem_of_fmap. exists (k, v). split; [done|].
    by apply elem_of_map_to_list. }
  destruct ((map_to_list db).*1) as [|k0 ks]; [by apply not_elem_of_nil in Hin|].
  destruct (foldr_max_ge k0 ks) as [H0 Hks].
  apply elem_of_cons in Hin as [->|Hin]; [lia|]. specialize (Hks k Hin). lia.
Qed.

Lemma next_rowid_fresh db : db !! next_rowid db = None.
Proof.
  destruct (db !! next_rowid db) eqn:E; [|done].
  assert (next_rowid db < next_rowid db); [|lia].
  apply next_rowid_above. eauto.
Qed.

Lemma next_rowid_empty : next_rowid ∅ = 1.
Proof. unfold next_rowid. by rewrite map_to_list_empty. Qed.



End rowid.

(** ** The handlers *)

Lemma redirect_home_eq :
  redirect_home = Return (RedirectResponse "/" 303).
Proof. reflexivity. Qed.

Lemma add_table task (db : Table) :
  (add task db).1 = <[next_rowid db := (task, false)]> db.
Proof. reflexivity. Qed.

Lemma binds_present (db : Table) todo_id v :
  db !! todo_id = Some v → binds db todo_id = true.
Proof.
  intros H. unfold binds. rewrite (bool_decide_eq_true_2 (is_Some _)) by eauto.
  apply orb_true_r.
Qed.

Lemma binds_absent (db : Table) todo_id :
  db !! todo_id = None → binds db todo_id = bool_decide (int64 todo_id).
Proof.
  intros H. unfold binds. rewrite (bool_decide_eq_false_2 (is_Some _)).
  - apply orb_false_r.
  - rewrite H. by intros [? ?].
Qed.

Lemma complete_found (db : Table) todo_id t c :
  db !! todo_id = Some (t, c) →
  complete todo_id db =
  (<[todo_id := (t, true)]> db, Return (RedirectResponse "/" 303)).
Proof.
  intros H. unfold complete.
  by rewrite (binds_present _ _ _ H), (first_filter_id_Some _ _ _ _ H).
Qed.

Lemma edit_submit_found (db : Table) todo_id t c task completed :
  db !! todo_id = Some (t, c) →
  edit_submit todo_id task completed db =
  (<[todo_id := (task, default false completed)]> db,
   Return (RedirectResponse "/" 303)).
Proof.
  intros H. unfold edit_submit.
  by rewrite (binds_present _ _ _ H), (first_filter_id_Some _ _ _ _ H).
Qed.

Lemma delete_todo_found (db : Table) todo_id t c :
  db !! todo_id = Some (t, c) →
  delete_todo todo_id db =
  (delete todo_id db, Return (RedirectResponse "/" 303)).
Proof.
  intros H. unfold delete_todo.
  by rewrite (binds_present _ _ _ H), (first_filter_id_Some _ _ _ _ H).
Qed.

Lemma edit_form_found (db : Table) todo_id t c :
  db !! todo_id = Some (t, c) →
  edit_form todo_id db =
  (db, Return (TemplateResponse "edit.html"
     (ctx_todo (Some (models.mkToDo todo_id t c))))).
Proof.
  intros H. unfold edit_form.
  by rewrite (binds_present _ _ _ H), (first_filter_id_Some _ _ _ _ H).
Qed.

Lemma edit_form_table (db : Table) todo_id : (edit_form todo_id db).1 = db.
Proof. unfold edit_form. by destruct (binds db todo_id). Qed.

(** The exception of a handler whose key has no row: the one of the use of
    [None] for a key the driver binds, the one of the driver otherwise. *)
Lemma complete_missing (db : Table) i :
  db !! i = None →
  complete i db =
  (db, Raise (if bool_decide (int64 i) then AttributeError else OverflowError)).
Proof.
  intros H. unfold complete.
  rewrite (binds_absent _ _ H), (first_filter_id_None _ _ H).
  by destruct (bool_decide _).
Qed.

Lemma edit_submit_missing (db : Table) i task completed :
  db !! i = None →
  edit_submit i task completed db =
  (db, Raise (if bool_decide (int64 i) then AttributeError else OverflowError)).
Proof.
  intros H. unfold edit_submit.
  rewrite (binds_absent _ _ H), (first_filter_id_None _ _ H).
  by destruct (bool_decide _).
Qed.

Lemma delete_todo_missing (db : Table) i :
  db !! i = None →
  delete_todo i db =
  (db, Raise (if bool_decide (int64 i)
              then UnmappedInstanceError else OverflowError)).
Proof.
  intros H. unfold delete_todo.
  rewrite (binds_absent _ _ H), (first_filter_id_None _ _ H).
  by destruct (bool_decide _).
Qed.

Lemma edit_form_missing (db : Table) i :
  db !! i = None →
  edit_form i db =
  (db, if bool_decide (int64 i)
       then Return (TemplateResponse "edit.html" (ctx_todo None))
       else Raise OverflowError).
Proof.
  intros H. unfold edit_form.
  rewrite (binds_absent _ _ H), (first_filter_id_None _ _ H).
  by destruct (bool_decide _).
Qed.

(** C1, as the claim states it, fails: for an id that no row has and that
    is not a signed 64-bit integer, here 2^63, Complete, Edit-submit and
    Delete do not fetch [None] and use it; the fetch itself raises
    [OverflowError], so the failure is not the one of a use of [None].  The
    table is left as it was. *)
Lemma C1_null_crash_fails_beyond_int64 :
  let db : Table := {[1 := ("a", false)]} in
  let todo_id := 9223372036854775808 in
  db !! todo_id = None ∧
  complete todo_id db = (db, Raise OverflowError) ∧
  edit_submit todo_id "b" (Some true) db = (db, Raise OverflowError) ∧
  delete_todo todo_id db = (db, Raise OverflowError) ∧
  ¬ (complete todo_id db = (db, Raise AttributeError) ∧
     edit_submit todo_id "b" (Some true) db = (db, Raise AttributeError) ∧
     delete_todo todo_id db = (db, Raise UnmappedInstanceError)).
Proof.
  vm_compute. repeat split; try reflexivity. intros [H _]. discriminate H.
Qed.

(** C1, amended.  When [todo_id] is the key of no row, Complete,
    Edit-submit and Delete never return a response and leave the table as
    it was, so no row is made up.  For a signed 64-bit [todo_id] they fetch
    [None] and use it unchecked: the attribute assignment on [None] raises
    in Complete and Edit-submit, [db.delete(None)] raises in Delete.  For
    any other [todo_id] the fetch itself raises [OverflowError]. *)
Theorem C1_missing_id_raises (db : Table) todo_id task completed :
  db !! todo_id = None →
  (int64 todo_id →
   first (filter_id todo_id (query db)) = None ∧
   complete todo_id db = (db, Raise AttributeError) ∧
   edit_submit todo_id task completed db = (db, Raise AttributeError) ∧
   delete_todo todo_id db = (db, Raise UnmappedInstanceError)) ∧
  (¬ int64 todo_id →
   complete todo_id db = (db, Raise OverflowError) ∧
   edit_submit todo_id task completed db = (db, Raise OverflowError) ∧
   delete_todo todo_id db = (db, Raise OverflowError)).
Proof.
  intros H.
  rewrite (complete_missing _ _ H), (edit_submit_missing _ _ task completed H),
    (delete_todo_missing _ _ H), (first_filter_id_None _ _ H).
  split; intros Hr.
  - by rewrite bool_decide_eq_true_2.
  - by rewrite bool_decide_eq_false_2.
Qed.

Lemma C1_missing_id_raises_witness :
  let db : Table := {[1 := ("a", false)]} in
  db !! 2 = None ∧
  (int64 2 →
   first (filter_id 2 (query db)) = None ∧
   complete 2 db = (db, Raise AttributeError) ∧
   edit_submit 2 "b" (Some true) db = (db, Raise AttributeError) ∧
   delete_todo 2 db = (db, Raise UnmappedInstanceError)) ∧
  (¬ int64 2 →
   complete 2 db = (db, Raise OverflowError) ∧
   edit_submit 2 "b" (Some true) db = (db, Raise OverflowError) ∧
   delete_todo 2 db = (db, Raise OverflowError)).
Proof.
  split; [reflexivity|].
  apply (C1_missing_id_raises {[1 := ("a", false)]} 2 "b" (Some true)).
  reflexivity.
Defined.

(** C2. For every description, the empty one too, Add inserts exactly one
    row: it has that description and [completed = false], its key was not
    in use, the rows of the table are the old ones and the new one, and the
    response is the 303 redirect to the path of [home]. *)
Theorem C2_add_inserts_one_row (db : Table) task :
  let db' := (add task db).1 in
  let todo := models.mkToDo (next_rowid db) task false in
  db !! models.id todo = None ∧
  db' !! models.id todo = Some (task, false) ∧
  query db' ≡ₚ todo :: query db ∧
  size db' = S (size db) ∧
  (add task db).2 = Return (RedirectResponse "/" HTTP_303_SEE_OTHER) ∧
  url_path_for "home" = Some "/" ∧
  HTTP_303_SEE_OTHER = 303.
Proof.
  simpl. pose proof (next_rowid_fresh db) as Hf.
  repeat split; try done.
  - apply lookup_insert_eq.
  - unfold query. by rewrite map_to_list_insert.
  - by apply map_size_insert_None.
Qed.

Example add_empty_description :
  add "" ∅ = ({[1 := ("", false)]}, Return (RedirectResponse "/" 303)).
Proof. vm_compute. reflexivity. Qed.

(** C9, as the claim states it, fails: for an id that no row has and that
    is not a signed 64-bit integer, here 2^63, the Edit-form handler does
    not get to the page; the fetch raises [OverflowError] before the
    response is built.  The table is left as it was. *)
Lemma C9_no_page_beyond_int64 :
  let db : Table := {[1 := ("a", false)]} in
  let todo_id := 9223372036854775808 in
  db !! todo_id = None ∧
  edit_form todo_id db = (db, Raise OverflowError) ∧
  edit_form todo_id db ≠
    (db, Return (TemplateResponse "edit.html" (ctx_todo None))).
Proof. vm_compute. repeat split; try reflexivity. discriminate. Qed.

(** C9, amended.  When [todo_id] is a signed 64-bit integer and the key of
    no row, the Edit-form handler does not touch the missing row: it
    returns the page [edit.html] with [todo] being [None] in the context,
    and leaves the table as it was.  When [todo_id] is the key of no row and
    not a signed 64-bit integer, the fetch raises [OverflowError] before
    the page, and the table is left as it was. *)
Theorem C9_edit_form_missing_id (db : Table) todo_id :
  db !! todo_id = None →
  (int64 todo_id →
   edit_form todo_id db =
   (db, Return (TemplateResponse "edit.html" (ctx_todo None)))) ∧
  (¬ int64 todo_id → edit_form todo_id db = (db, Raise OverflowError)).
Proof.
  intros H. rewrite (edit_form_missing _ _ H). split; intros Hr.
  - by rewrite bool_decide_eq_true_2.
  - by rewrite bool_decide_eq_false_2.
Qed.

Lemma C9_edit_form_missing_id_witness :
  let db : Table := {[1 := ("a", false)]} in
  db !! 7 = None ∧
  (int64 7 →
   edit_form 7 db =
   (db, Return (TemplateResponse "edit.html" (ctx_todo None)))) ∧
  (¬ int64 7 → edit_form 7 db = (db, Raise OverflowError)).
Proof.
  split; [reflexivity|].
  apply (C9_edit_form_missing_id {[1 := ("a", false)]} 7). reflexivity.
Defined.

(** C10. Add leaves the rows it finds as they are: a row of the table
    before Add is a row of the table after it, with the same key, the same
    text and the same flag. *)
Theorem C10_add_keeps_rows (db : Table) task r :
  r ∈ query db →
  r ∈ query (add task db).1 ∧
  (add task db).1 !! models.id r = Some (models.task r, models.completed r).
Proof.
  intros Hr. assert (Hl := Hr). apply elem_of_query in Hl.
  rewrite elem_of_query, add_table. split.
  - rewrite lookup_insert_ne; [done|]. intros E.
    pose proof (next_rowid_fresh db) as Hf. rewrite E in Hf. congruence.
  - rewrite lookup_insert_ne; [done|]. intros E.
    pose proof (next_rowid_fresh db) as Hf. rewrite E in Hf. congruence.
Qed.

Lemma C10_add_keeps_rows_witness :
  let db : Table := {[4 := ("a", true)]} in
  let r := models.mkToDo 4 "a" true in
  r ∈ query db ∧
  (r ∈ query (add "b" db).1 ∧
   (add "b" db).1 !! models.id r = Some (models.task r, models.completed r)).
Proof.
  assert (models.mkToDo 4 "a" true ∈ query {[4 := ("a", true)]}) as H.
  { vm_compute. left. }
  split; [exact H|].
  apply (C10_add_keeps_rows {[4 := ("a", true)]} "b" (models.mkToDo 4 "a" true) H).
Defined.

(** C3. For every table, List returns the page [index.html] over a list
    that holds exactly the rows of the table, none twice, in strictly
    descending order of [id]; the handler leaves the table as it was. *)
Theorem C3_home_lists_all_desc (db : Table) :
  ∃ todos,
    home db = (db, Return (TemplateResponse "index.html" (ctx_todos todos))) ∧
    (∀ r, r ∈ todos ↔
          db !! models.id r = Some (models.task r, models.completed r)) ∧
    NoDup todos ∧
    length todos = size db ∧
    StronglySorted id_gt todos.
Proof.
  exists (order_by_id_desc (query db)). split; [done|].
  split; [|split; [|split]].
  - intros r. rewrite order_by_id_desc_perm. apply elem_of_query.
  - rewrite order_by_id_desc_perm. apply NoDup_query.
  - rewrite order_by_id_desc_perm. unfold query.
    by rewrite length_fmap, length_map_to_list.
  - apply listing_strict.
Qed.

Example add_then_list :
  home (add "Buy milk" {[1 := ("a", true)]}).1 =
  (<[2 := ("Buy milk", false)]> {[1 := ("a", true)]},
   Return (TemplateResponse "index.html"
     (ctx_todos [models.mkToDo 2 "Buy milk" false; models.mkToDo 1 "a" true]))).
Proof. vm_compute. reflexivity. Qed.

(** C4. For the key of an existing row and every form input ([task], and
    [completed] or nothing, which stands for [false]), Edit-submit replaces
    both the text and the flag of that row by the submitted values and
    redirects; fetching the row afterwards yields the new values. *)
Theorem C4_edit_submit_overwrites (db : Table) todo_id old task completed :
  db !! todo_id = Some old →
  let db' := (edit_submit todo_id task completed db).1 in
  let new_completed := match completed with Some b => b | None => false end in
  (edit_submit todo_id task completed db).2 =
    Return (RedirectResponse "/" 303) ∧
  db' = <[todo_id := (task, new_completed)]> db ∧
  first (filter_id todo_id (query db')) =
    Some (models.mkToDo todo_id task new_completed) ∧
  (edit_form todo_id db').2 =
    Return (TemplateResponse "edit.html"
      (ctx_todo (Some (models.mkToDo todo_id task new_completed)))).
Proof.
  intros H. destruct old as [t c]. simpl.
  rewrite (edit_submit_found _ _ _ _ task completed H). simpl.
  assert (first (filter_id todo_id
            (query (<[todo_id := (task, default false completed)]> db))) =
          Some (models.mkToDo todo_id task (default false completed))) as Hq.
  { apply first_filter_id_Some, lookup_insert_eq. }
  rewrite (edit_form_found _ todo_id task (default false completed))
    by apply lookup_insert_eq.
  rewrite Hq. by destruct completed.
Qed.

Lemma C4_edit_submit_overwrites_witness :
  let db : Table := {[3 := ("Buy milk", false)]} in
  db !! 3 = Some ("Buy milk", false) ∧
  let db' := (edit_submit 3 "Buy oat milk" (Some true) db).1 in
  (edit_submit 3 "Buy oat milk" (Some true) db).2 =
    Return (RedirectResponse "/" 303) ∧
  db' = <[3 := ("Buy oat milk", true)]> db ∧
  first (filter_id 3 (query db')) =
    Some (models.mkToDo 3 "Buy oat milk" true) ∧
  (edit_form 3 db').2 =
    Return (TemplateResponse "edit.html"
      (ctx_todo (Some (models.mkToDo 3 "Buy oat milk" true)))).
Proof.
  split; [reflexivity|].
  apply (C4_edit_submit_overwrites {[3 := ("Buy milk", false)]} 3
           ("Buy milk", false) "Buy oat milk" (Some true)).
  reflexivity.
Defined.

(** C5. For the key of an existing row, Complete redirects and sets the
    flag of that row to [true], keeping its key and its text; the listing
    that follows shows the row with the flag set, and no other row under
    that key. *)
Theorem C5_complete_sets_flag (db : Table) todo_id t c :
  db !! todo_id = Some (t, c) →
  let db' := (complete todo_id db).1 in
  (complete todo_id db).2 = Return (RedirectResponse "/" 303) ∧
  db' = <[todo_id := (t, true)]> db ∧
  first (filter_id todo_id (query db')) = Some (models.mkToDo todo_id t true) ∧
  ∃ todos,
    (home db').2 = Return (TemplateResponse "index.html" (ctx_todos todos)) ∧
    models.mkToDo todo_id t true ∈ todos ∧
    (∀ r, r ∈ todos → models.id r = todo_id → r = models.mkToDo todo_id t true).
Proof.
  intros H. simpl. rewrite (complete_found _ _ _ _ H). simpl.
  assert (<[todo_id := (t, true)]> db !! todo_id = Some (t, true)) as Hl
    by apply lookup_insert_eq.
  split; [done|]. split; [done|].
  split; [by apply first_filter_id_Some|].
  eexists. split; [done|]. split.
  - rewrite order_by_id_desc_perm. by apply elem_of_query.
  - intros r Hr E. rewrite order_by_id_desc_perm in Hr.
    apply elem_of_query in Hr. rewrite E, Hl in Hr.
    destruct r; simpl in *. congruence.
Qed.

Lemma C5_complete_sets_flag_witness :
  let db : Table := <[2 := ("b", false)]> {[1 := ("a", false)]} in
  db !! 2 = Some ("b", false) ∧
  let db' := (complete 2 db).1 in
  (complete 2 db).2 = Return (RedirectResponse "/" 303) ∧
  db' = <[2 := ("b", true)]> db ∧
  first (filter_id 2 (query db')) = Some (models.mkToDo 2 "b" true) ∧
  ∃ todos,
    (home db').2 = Return (TemplateResponse "index.html" (ctx_todos todos)) ∧
    models.mkToDo 2 "b" true ∈ todos ∧
    (∀ r, r ∈ todos → models.id r = 2 → r = models.mkToDo 2 "b" true).
Proof.
  split; [reflexivity|].
  apply (C5_complete_sets_flag (<[2 := ("b", false)]> {[1 := ("a", false)]})
           2 "b" false).
  reflexivity.
Defined.

(** C6. For the key of an existing row, Delete redirects and removes the
    row itself: the table has one row fewer and nothing under that key, the
    listing that follows has no row with that key, and fetching the key
    yields [None].  The Edit-form handler then has [None] for the page, the
    key being a signed 64-bit integer as the keys of the engine are (with
    any other key its fetch would raise). *)
Theorem C6_delete_removes_row (db : Table) todo_id t c :
  db !! todo_id = Some (t, c) →
  let db' := (delete_todo todo_id db).1 in
  (delete_todo todo_id db).2 = Return (RedirectResponse "/" 303) ∧
  db' = delete todo_id db ∧
  db' !! todo_id = None ∧
  size db = S (size db') ∧
  first (filter_id todo_id (query db')) = None ∧
  (edit_form todo_id db').2 =
    (if bool_decide (int64 todo_id)
     then Return (TemplateResponse "edit.html" (ctx_todo None))
     else Raise OverflowError) ∧
  ∃ todos,
    (home db').2 = Return (TemplateResponse "index.html" (ctx_todos todos)) ∧
    ∀ r, r ∈ todos → models.id r ≠ todo_id.
Proof.
  intros H. simpl. rewrite (delete_todo_found _ _ _ _ H). simpl.
  assert (delete todo_id db !! todo_id = None) as Hl by apply lookup_delete_eq.
  pose proof (first_filter_id_None _ _ Hl) as Hq.
  split; [done|]. split; [done|]. split; [done|]. split.
  { rewrite map_size_delete_Some by eauto.
    assert (size db ≠ 0%nat); [|lia].
    intros E%map_size_empty_iff. by rewrite E in H. }
  split; [done|]. split.
  { by rewrite (edit_form_missing _ _ Hl). }
  eexists. split; [done|].
  intros r Hr E. rewrite order_by_id_desc_perm in Hr.
  apply elem_of_query in Hr. rewrite E, Hl in Hr. done.
Qed.

Lemma C6_delete_removes_row_witness :
  let db : Table := <[2 := ("b", false)]> {[1 := ("a", false)]} in
  db !! 1 = Some ("a", false) ∧
  let db' := (delete_todo 1 db).1 in
  (delete_todo 1 db).2 = Return (RedirectResponse "/" 303) ∧
  db' = delete 1 db ∧
  db' !! 1 = None ∧
  size db = S (size db') ∧
  first (filter_id 1 (query db')) = None ∧
  (edit_form 1 db').2 =
    (if bool_decide (int64 1)
     then Return (TemplateResponse "edit.html" (ctx_todo None))
     else Raise OverflowError) ∧
  ∃ todos,
    (home db').2 = Return (TemplateResponse "index.html" (ctx_todos todos)) ∧
    ∀ r, r ∈ todos → models.id r ≠ 1.
Proof.
  split; [reflexivity|].
  apply (C6_delete_removes_row (<[2 := ("b", false)]> {[1 := ("a", false)]})
           1 "a" false).
  reflexivity.
Defined.

Example delete_twice :
  let db : Table := {[1 := ("a", false)]} in
  delete_todo 1 (delete_todo 1 db).1 = (∅, Raise UnmappedInstanceError).
Proof. vm_compute. reflexivity. Qed.

(** C8. Complete is idempotent: for the key of an existing row, a second
    Complete right after the first redirects as the first did and leaves
    the table as the first left it. *)
Theorem C8_complete_idempotent (db : Table) todo_id :
  is_Some (db !! todo_id) →
  (complete todo_id db).2 = Return (RedirectResponse "/" 303) ∧
  complete todo_id (complete todo_id db).1 = complete todo_id db.
Proof.
  intros [[t c] H]. rewrite (complete_found _ _ _ _ H). simpl.
  split; [done|].
  rewrite (complete_found _ todo_id t true) by apply lookup_insert_eq.
  by rewrite insert_insert_eq.
Qed.

Lemma C8_complete_idempotent_witness :
  let db : Table := <[2 := ("b", false)]> {[1 := ("a", false)]} in
  is_Some (db !! 2) ∧
  ((complete 2 db).2 = Return (RedirectResponse "/" 303) ∧
   complete 2 (complete 2 db).1 = complete 2 db).
Proof.
  assert (is_Some ((<[2 := ("b", false)]> {[1 := ("a", false)]} : Table) !! 2))
    as H.
  { exists ("b", false). reflexivity. }
  split; [exact H|].
  apply (C8_complete_idempotent
           (<[2 := ("b", false)]> {[1 := ("a", false)]}) 2 H).
Defined.

(** ** Runs of Add requests *)

Section runs.

Implicit Types (db : Table) (tasks : list string).





Lemma filter_all {A} (P : A → Prop) `{∀ x, Decision (P x)} (l : list A) :
  (∀ x, x ∈ l → P x) → filter P l = l.
Proof.
  induction l as [|x l IH]; intros HP; [done|].
  rewrite filter_cons_True by (apply HP; left).
  f_equal. apply IH. intros y Hy. apply HP. by right.
Qed.


End runs.


Example add_run_from_gap :
  let db : Table := <[5 := ("old", true)]> {[2 := ("older", false)]} in
  add_all ["x"; ""; "x"] db =
  ([models.mkToDo 6 "x" false; models.mkToDo 7 "" false;
    models.mkToDo 8 "x" false],
   <[8 := ("x", false)]> (<[7 := ("", false)]> (<[6 := ("x", false)]> db))) ∧
  (home (add_requests ["x"; ""; "x"] db)).2 =
  Return (TemplateResponse "index.html" (ctx_todos
    [models.mkToDo 8 "x" false; models.mkToDo 7 "" false;
     models.mkToDo 6 "x" false; models.mkToDo 5 "old" true;
     models.mkToDo 2 "older" false])).
Proof. vm_compute. split; reflexivity. Qed.

(** ** The query by key *)

Section by_key.

Implicit Types (db : Table) (r : models.ToDo) (i k : Z).

Lemma elem_of_filter_id db i r :
  r ∈ filter_id i (query db) ↔
  models.id r = i ∧ db !! i = Some (models.task r, models.completed r).
Proof.
  unfold filter_id. rewrite list_elem_of_filter, elem_of_query.
  split; intros [E H]; (split; [done|]); by rewrite ?E in *.
Qed.

End by_key.

(** X1. The query by key, before [first()] is taken, has exactly the row
    stored under the key when there is one, and no row otherwise: the key
    never selects two rows, so [first()] drops none. *)
Theorem X1_filter_id_at_most_one (db : Table) (todo_id : Z) :
  filter_id todo_id (query db) =
  match db !! todo_id with
  | Some (t, c) => [models.mkToDo todo_id t c]
  | None => []
  end.
Proof.
  assert (NoDup (filter_id todo_id (query db))) as Hnd
    by apply NoDup_filter, NoDup_query.
  assert (∀ r, r ∈ filter_id todo_id (query db) →
    ∃ t c, db !! todo_id = Some (t, c) ∧ r = models.mkToDo todo_id t c) as Hel.
  { intros [i t c] [E H]%elem_of_filter_id. simpl in *. subst. eauto. }
  destruct (db !! todo_id) as [[t c]|] eqn:Hi.
  - assert (models.mkToDo todo_id t c ∈ filter_id todo_id (query db)) as Hin
      by by apply elem_of_filter_id.
    destruct (filter_id todo_id (query db)) as [|a [|b l]].
    + by apply not_elem_of_nil in Hin.
    + destruct (Hel a) as (t' & c' & E & ->); [left|]. congruence.
    + destruct (Hel a) as (ta & ca & Ea & ->); [left|].
      destruct (Hel b) as (tb & cb & Eb & ->); [right; left|].
      apply NoDup_cons in Hnd as [Hnd _]. destruct Hnd.
      replace ta with tb by congruence. replace ca with cb by congruence. left.
  - destruct (filter_id todo_id (query db)) as [|a l]; [done|].
    destruct (Hel a) as (t' & c' & E & _); [left|]. done.
Qed.

(** X2. For the key of an existing row, the Edit-form handler hands the
    template the row stored under the key, with the text and the flag it
    has, and leaves the table as it was. *)
Theorem X2_edit_form_shows_stored_row (db : Table) (todo_id : Z) t c :
  db !! todo_id = Some (t, c) →
  edit_form todo_id db =
  (db, Return (TemplateResponse "edit.html"
     (ctx_todo (Some (models.mkToDo todo_id t c))))).
Proof.
  intros H. unfold edit_form.
  rewrite (binds_present _ _ _ H). by rewrite first_filter_id, H.
Qed.

Lemma X2_edit_form_shows_stored_row_witness :
  let db : Table := <[2 := ("b", true)]> {[1 := ("a", false)]} in
  db !! 2 = Some ("b", true) ∧
  edit_form 2 db =
  (db, Return (TemplateResponse "edit.html"
     (ctx_todo (Some (models.mkToDo 2 "b" true))))).
Proof.
  split; [reflexivity|].
  apply (X2_edit_form_shows_stored_row
           (<[2 := ("b", true)]> {[1 := ("a", false)]}) 2 "b" true).
  reflexivity.
Defined.

(** X3. A request changes the table only when it ends in the redirect to
    the listing: when the outcome is a page or an exception, the table is
    the one the request found. *)
Theorem X3_no_redirect_no_change (req : Request) (db : Table) :
  (handle req db).2 ≠ Return (RedirectResponse "/" 303) →
  (handle req db).1 = db.
Proof.
  destruct req as [|task|i|i|i task completed|i]; simpl; try done.
  - destruct (db !! i) as [[t c]|] eqn:H.
    + by rewrite (complete_found _ _ _ _ H).
    + by rewrite (complete_missing _ _ H).
  - unfold edit_form. by destruct (binds db i).
  - destruct (db !! i) as [[t c]|] eqn:H.
    + by rewrite (edit_submit_found _ _ _ _ task completed H).
    + by rewrite (edit_submit_missing _ _ task completed H).
  - destruct (db !! i) as [[t c]|] eqn:H.
    + by rewrite (delete_todo_found _ _ _ _ H).
    + by rewrite (delete_todo_missing _ _ H).
Qed.

Lemma X3_no_redirect_no_change_witness :
  let db : Table := {[1 := ("a", false)]} in
  (handle (GET_delete 5) db).2 ≠ Return (RedirectResponse "/" 303) ∧
  (handle (GET_delete 5) db).1 = db.
Proof.
  assert ((handle (GET_delete 5) {[1 := ("a", false)]}).2 ≠
          Return (RedirectResponse "/" 303)) as H.
  { vm_compute. discriminate. }
  split; [exact H|].
  apply (X3_no_redirect_no_change (GET_delete 5) {[1 := ("a", false)]} H).
Defined.

(** ** Changes to single rows *)

Section single_rows.

Implicit Types (db : Table) (i k : Z) (req : Request).

(** The table after a request that has a key in its path. *)
Lemma handle_target req i db :
  target req = Some i →
  (handle req db).1 = db ∨
  (is_Some (db !! i) ∧
   ((∃ v, (handle req db).1 = <[i := v]> db) ∨ (handle req db).1 = delete i db)).
Proof.
  destruct req as [|task|j|j|j task completed|j]; simpl; intros [= ->].
  - destruct (db !! i) as [[t c]|] eqn:H.
    + rewrite (complete_found _ _ _ _ H). eauto 6.
    + rewrite (complete_missing _ _ H). eauto.
  - destruct (db !! i) as [[t c]|] eqn:H.
    + rewrite (edit_submit_found _ _ _ _ task completed H). eauto 6.
    + rewrite (edit_submit_missing _ _ task completed H). eauto.
  - destruct (db !! i) as [[t c]|] eqn:H.
    + rewrite (delete_todo_found _ _ _ _ H). eauto 6.
    + rewrite (delete_todo_missing _ _ H). eauto.
Qed.

Lemma handle_target_other req i k db :
  target req = Some i → k ≠ i → (handle req db).1 !! k = db !! k.
Proof.
  intros Ht Hk.
  destruct (handle_target req i db Ht) as [->|[_ [[v ->]| ->]]]; [done| |].
  - by rewrite lookup_insert_ne.
  - by rewrite lookup_delete_ne.
Qed.

End single_rows.

(** X5. Complete, Edit-submit and Delete touch no row but the one whose key
    is in the path: under every other key the table has after the request
    what it had before. *)
Theorem X5_target_frame (req : Request) (todo_id k : Z) (db : Table) :
  target req = Some todo_id →
  k ≠ todo_id →
  (handle req db).1 !! k = db !! k.
Proof. apply handle_target_other. Qed.

Lemma X5_target_frame_witness :
  let db : Table := <[2 := ("b", false)]> {[1 := ("a", false)]} in
  target (GET_delete 2) = Some 2 ∧ 1 ≠ 2 ∧
  (handle (GET_delete 2) db).1 !! 1 = db !! 1.
Proof.
  assert (1 ≠ 2) as H by lia.
  split; [reflexivity|]. split; [exact H|].
  apply (X5_target_frame (GET_delete 2) 2 1
           (<[2 := ("b", false)]> {[1 := ("a", false)]}) eq_refl H).
Defined.

(** X6. Complete and Edit-submit neither create nor remove a row, whatever
    the key: the set of keys of the table is the same before and after. *)
Theorem X6_update_keeps_keys (db : Table) (todo_id : Z) task completed :
  dom (complete todo_id db).1 = dom db ∧
  dom (edit_submit todo_id task completed db).1 = dom db.
Proof.
  destruct (db !! todo_id) as [[t c]|] eqn:H.
  - rewrite (complete_found _ _ _ _ H).
    rewrite (edit_submit_found _ _ _ _ task completed H). simpl.
    split; apply dom_insert_lookup_L; eauto.
  - rewrite (complete_missing _ _ H).
    by rewrite (edit_submit_missing _ _ task completed H).
Qed.

Lemma add_then_delete (db : Table) task :
  delete_todo (next_rowid db) (add task db).1 =
  (db, Return (RedirectResponse "/" 303)).
Proof.
  rewrite add_table.
  rewrite (delete_todo_found _ _ task false) by apply lookup_insert_eq.
  rewrite delete_insert_eq. by rewrite delete_id by apply next_rowid_fresh.
Qed.

(** X7. Add followed by Delete of the row just created gives back the
    table from before the Add, and the Delete redirects. *)
Theorem X7_add_delete_round_trip (db : Table) task :
  let todo := (add_commit task db).1 in
  delete_todo (models.id todo) (add task db).1 =
  (db, Return (RedirectResponse "/" 303)).
Proof. apply add_then_delete. Qed.

(** X9. Edit-submit decides the row alone: after a Complete or another
    Edit-submit on the same key it gives the table and the outcome it
    would have given without them, whether the key has a row or not. *)
Theorem X9_edit_submit_absorbs (db : Table) (todo_id : Z) task completed
    task0 completed0 :
  edit_submit todo_id task completed (complete todo_id db).1 =
    edit_submit todo_id task completed db ∧
  edit_submit todo_id task completed
      (edit_submit todo_id task0 completed0 db).1 =
    edit_submit todo_id task completed db.
Proof.
  destruct (db !! todo_id) as [[t c]|] eqn:H.
  - rewrite (complete_found _ _ _ _ H).
    rewrite (edit_submit_found _ _ _ _ task0 completed0 H).
    rewrite (edit_submit_found _ _ _ _ task completed H). simpl.
    rewrite (edit_submit_found _ todo_id t true) by apply lookup_insert_eq.
    rewrite (edit_submit_found _ todo_id task0 (default false completed0))
      by apply lookup_insert_eq.
    by rewrite !insert_insert_eq.
  - rewrite (complete_missing _ _ H).
    by rewrite (edit_submit_missing _ _ task0 completed0 H).
Qed.

(** X10. Complete is the Edit-submit of the text the row has, with the
    flag submitted as true. *)
Theorem X10_complete_as_edit_submit (db : Table) (todo_id : Z) t c :
  db !! todo_id = Some (t, c) →
  complete todo_id db = edit_submit todo_id t (Some true) db.
Proof.
  intros H. rewrite (complete_found _ _ _ _ H).
  by rewrite (edit_submit_found _ _ _ _ t (Some true) H).
Qed.

Lemma X10_complete_as_edit_submit_witness :
  let db : Table := {[3 := ("Buy milk", false)]} in
  db !! 3 = Some ("Buy milk", false) ∧
  complete 3 db = edit_submit 3 "Buy milk" (Some true) db.
Proof.
  split; [reflexivity|].
  apply (X10_complete_as_edit_submit {[3 := ("Buy milk", false)]} 3
           "Buy milk" false).
  reflexivity.
Defined.

(** X11. Once Delete was requested for a key, Complete, Edit-submit and
    Delete for that key raise and leave the table as it is: a repeated
    Delete is an error, not a second removal.  For a signed 64-bit key the
    exceptions are those of the use of [None]; for any other key the fetch
    raises [OverflowError]. *)
Theorem X11_after_delete_raises (db : Table) (todo_id : Z) task completed :
  let db' := (delete_todo todo_id db).1 in
  let none_error e := if bool_decide (int64 todo_id) then e else OverflowError in
  complete todo_id db' = (db', Raise (none_error AttributeError)) ∧
  edit_submit todo_id task completed db' =
    (db', Raise (none_error AttributeError)) ∧
  delete_todo todo_id db' = (db', Raise (none_error UnmappedInstanceError)).
Proof.
  simpl.
  assert ((delete_todo todo_id db).1 !! todo_id = None) as Hl.
  { destruct (db !! todo_id) as [[t c]|] eqn:H.
    - rewrite (delete_todo_found _ _ _ _ H). apply lookup_delete_eq.
    - by rewrite (delete_todo_missing _ _ H). }
  rewrite (complete_missing _ _ Hl).
  rewrite (edit_submit_missing _ _ task completed Hl).
  by rewrite (delete_todo_missing _ _ Hl).
Qed.

(** ** Requests on different keys *)

Section different_keys.

Implicit Types (db : Table) (i j : Z) (req : Request).

(** A request with a key in its path rewrites the entry of that key from
    what the entry is, and its outcome depends on that entry only. *)
Lemma handle_partial_alter req i :
  target req = Some i →
  ∃ f g, ∀ db, handle req db = (partial_alter f i db, g (db !! i)).
Proof.
  destruct req as [|task|k|k|k task completed|k]; simpl; intros [= ->].
  - exists (λ o : option (string * bool), (λ v, (v.1, true)) <$> o),
      (λ o : option (string * bool),
         match o with
         | Some _ => redirect_home
         | None =>
             Raise (if bool_decide (int64 i)
                    then AttributeError else OverflowError)
         end).
    intros db. destruct (db !! i) as [[t c]|] eqn:H.
    + rewrite (complete_found _ _ _ _ H). f_equal.
      apply map_eq. intros k. rewrite lookup_insert, lookup_partial_alter.
      case_decide; [by rewrite H|done].
    + rewrite (complete_missing _ _ H). f_equal.
      symmetry. apply partial_alter_id. by rewrite H.
  - exists (λ o : option (string * bool), (λ _, (task, default false completed)) <$> o),
      (λ o : option (string * bool),
         match o with
         | Some _ => redirect_home
         | None =>
             Raise (if bool_decide (int64 i)
                    then AttributeError else OverflowError)
         end).
    intros db. destruct (db !! i) as [[t c]|] eqn:H.
    + rewrite (edit_submit_found _ _ _ _ task completed H). f_equal.
      apply map_eq. intros k. rewrite lookup_insert, lookup_partial_alter.
      case_decide; [by rewrite H|done].
    + rewrite (edit_submit_missing _ _ task completed H). f_equal.
      symmetry. apply partial_alter_id. by rewrite H.
  - exists (λ _, None),
      (λ o : option (string * bool),
         match o with
         | Some _ => redirect_home
         | None =>
             Raise (if bool_decide (int64 i)
                    then UnmappedInstanceError else OverflowError)
         end).
    intros db. destruct (db !! i) as [[t c]|] eqn:H.
    + by rewrite (delete_todo_found _ _ _ _ H).
    + rewrite (delete_todo_missing _ _ H). f_equal.
      symmetry. apply partial_alter_id. by rewrite H.
Qed.

End different_keys.

(** X12. Two requests among Complete, Edit-submit and Delete with
    different keys do not interfere: served in either order they leave the
    same table, and the second has the outcome it would have had alone. *)
Theorem X12_different_keys_commute (req1 req2 : Request) (i j : Z)
    (db : Table) :
  target req1 = Some i →
  target req2 = Some j →
  i ≠ j →
  run [req1; req2] db = run [req2; req1] db ∧
  (handle req2 (handle req1 db).1).2 = (handle req2 db).2.
Proof.
  intros H1 H2 Hij.
  destruct (handle_partial_alter req1 i H1) as (f1 & g1 & E1).
  destruct (handle_partial_alter req2 j H2) as (f2 & g2 & E2).
  unfold run. simpl. repeat (first [rewrite E1|rewrite E2]; simpl). split.
  - rewrite partial_alter_partial_alter. by rewrite decide_False by done.
  - by rewrite lookup_partial_alter_ne.
Qed.

Lemma X12_different_keys_commute_witness :
  let db : Table := <[2 := ("b", false)]> {[1 := ("a", false)]} in
  target (GET_complete 1) = Some 1 ∧ target (GET_delete 2) = Some 2 ∧ 1 ≠ 2 ∧
  (run [GET_complete 1; GET_delete 2] db =
     run [GET_delete 2; GET_complete 1] db ∧
   (handle (GET_delete 2) (handle (GET_complete 1) db).1).2 =
     (handle (GET_delete 2) db).2).
Proof.
  assert (1 ≠ 2) as H by lia.
  split; [reflexivity|]. split; [reflexivity|]. split; [exact H|].
  apply (X12_different_keys_commute (GET_complete 1) (GET_delete 2) 1 2
           (<[2 := ("b", false)]> {[1 := ("a", false)]}) eq_refl eq_refl H).
Defined.

(** ** Tables reached by requests *)

Section reached.

Implicit Types (db : Table) (k n : Z) (req : Request) (reqs : list Request).

Lemma foldr_max_in (k : Z) (ks : list Z) :
  foldr Z.max k ks ∈ k :: ks.
Proof.
  induction ks as [|k1 ks IH]; simpl; [left|].
  destruct (Z.max_spec k1 (foldr Z.max k ks)) as [[_ ->]|[_ ->]].
  - apply elem_of_cons in IH as [->|IH]; [left|by do 2 right].
  - right; left.
Qed.

(** The new key is 1 in the empty table, and the successor of a key in use
    otherwise. *)
Lemma next_rowid_spec db :
  (db = ∅ ∧ next_rowid db = 1) ∨
  (∃ k, is_Some (db !! k) ∧ next_rowid db = k + 1).
Proof.
  unfold next_rowid. destruct ((map_to_list db).*1) as [|k0 ks] eqn:E.
  - left. split; [|done]. apply map_to_list_empty_iff.
    by apply fmap_nil_inv in E.
  - right. exists (foldr Z.max k0 ks). split; [|done].
    pose proof (foldr_max_in k0 ks) as Hin. rewrite <-E in Hin.
    apply list_elem_of_fmap in Hin as [[k v] [-> Hin]].
    apply elem_of_map_to_list in Hin. simpl. eauto.
Qed.

(** A request other than Add brings no new key. *)
Lemma handle_keys req db k :
  count_add [req] = 0%nat →
  is_Some ((handle req db).1 !! k) → is_Some (db !! k).
Proof.
  intros Hc. destruct (target req) as [i|] eqn:Ht.
  - destruct (handle_target req i db Ht) as [->|[Hi [[v ->]| ->]]]; [done| |].
    + rewrite lookup_insert. by case_decide; subst.
    + rewrite lookup_delete. by case_decide; [intros []|].
  - destruct req; try done. simpl. by rewrite edit_form_table.
Qed.

Lemma handle_size req db :
  (size (handle req db).1 ≤ size db + count_add [req])%nat.
Proof.
  destruct (target req) as [i|] eqn:Ht.
  - destruct (handle_target req i db Ht) as [->|[Hi [[v ->]| ->]]]; [lia| |].
    + rewrite map_size_insert_Some by done. lia.
    + rewrite map_size_delete_Some by done. lia.
  - destruct req; try done; simpl; rewrite ?edit_form_table; try lia.
    rewrite map_size_insert_None by apply next_rowid_fresh. lia.
Qed.

Lemma run_cons req reqs db : run (req :: reqs) db = run reqs (handle req db).1.
Proof. done. Qed.

Lemma count_add_cons req reqs :
  count_add (req :: reqs) = (count_add [req] + count_add reqs)%nat.
Proof. by destruct req. Qed.

Lemma run_keys reqs db n k :
  0 ≤ n →
  (∀ k, is_Some (db !! k) → 1 ≤ k ≤ n) →
  is_Some (run reqs db !! k) → 1 ≤ k ≤ n + Z.of_nat (count_add reqs).
Proof.
  revert db n. induction reqs as [|req reqs IH]; intros db n Hn Hdb Hk.
  { simpl in *. specialize (Hdb k Hk). lia. }
  rewrite run_cons in Hk. rewrite count_add_cons.
  destruct (decide (count_add [req] = 0%nat)) as [Hc|Hc].
  - rewrite Hc. apply (IH (handle req db).1 n); [done| |done].
    intros k' Hk'. apply Hdb. by apply (handle_keys req).
  - destruct req; try done. simpl in *.
    apply (IH _ (n + 1)) in Hk; [lia|lia|].
    intros k' Hk'. rewrite lookup_insert in Hk'. case_decide as Hd.
    + subst k'. destruct (next_rowid_spec db) as [[_ ->]|(k0 & H0 & ->)];
        [lia|]. specialize (Hdb k0 H0). lia.
    + specialize (Hdb k' Hk'). lia.
Qed.

Lemma run_size reqs db :
  (size (run reqs db) ≤ size db + count_add reqs)%nat.
Proof.
  revert db. induction reqs as [|req reqs IH]; intros db; [simpl; lia|].
  rewrite run_cons, count_add_cons.
  pose proof (IH (handle req db).1). pose proof (handle_size req db). lia.
Qed.

End reached.

(** X13. In a table reached from the empty one by any requests, every key
    is at least 1 and at most the number of Add requests served, and there
    are no more rows than Add requests. *)
Theorem X13_keys_from_empty_table (reqs : list Request) :
  let db : Table := run reqs ∅ in
  (∀ k, is_Some (db !! k) → 1 ≤ k ≤ Z.of_nat (count_add reqs)) ∧
  (size db ≤ count_add reqs)%nat.
Proof.
  simpl. split.
  - intros k Hk. apply (run_keys reqs ∅ 0 k) in Hk; [lia|lia|].
    intros k' [v Hk']. by rewrite lookup_empty in Hk'.
  - pose proof (run_size reqs ∅) as H. by rewrite map_size_empty in H.
Qed.

(** ** The listing after a change to one row *)

Section listing_changes.

Implicit Types (db : Table) (i : Z) (r : models.ToDo) (l : list models.ToDo).

Lemma query_delete db i t c :
  db !! i = Some (t, c) →
  query db ≡ₚ models.mkToDo i t c :: query (delete i db).
Proof.
  intros H. unfold query.
  by rewrite <-(map_to_list_delete db i (t, c)) by done.
Qed.

Lemma query_delete_ids db i r : r ∈ query (delete i db) → models.id r ≠ i.
Proof.
  intros Hr%elem_of_query E. by rewrite E, lookup_delete_eq in Hr.
Qed.

Lemma sorted_filter (P : models.ToDo → Prop) `{∀ r, Decision (P r)} l :
  StronglySorted id_desc l → StronglySorted id_desc (filter P l).
Proof.
  induction 1 as [|r l Hs IH Hall]; [constructor|].
  rewrite filter_cons. case_decide; [|done].
  constructor; [done|]. rewrite Forall_forall in *.
  intros r' [_ Hr']%list_elem_of_filter. by apply Hall.
Qed.

(** The listing after the entry of a key is replaced: the listing from
    before, with the row of that key replaced where it stands. *)
Lemma listing_insert_present db i t c t' c' :
  db !! i = Some (t, c) →
  order_by_id_desc (query (<[i := (t', c')]> db)) =
  (λ r, if decide (models.id r = i) then models.mkToDo i t' c' else r)
    <$> order_by_id_desc (query db).
Proof.
  intros H. set (f := λ r, if decide (models.id r = i)
                          then models.mkToDo i t' c' else r).
  assert (∀ r, models.id (f r) = models.id r) as Hid.
  { intros r. unfold f. by case_decide. }
  apply sorted_unique.
  - rewrite order_by_id_desc_perm. apply NoDup_query_ids.
  - apply order_by_id_desc_sorted.
  - eapply StronglySorted_fmap; [|apply order_by_id_desc_sorted].
    intros r1 r2. unfold id_desc. by rewrite !Hid.
  - rewrite !order_by_id_desc_perm. rewrite (query_delete db i t c H).
    rewrite <-insert_delete_eq. unfold query at 1.
    rewrite map_to_list_insert by apply lookup_delete_eq.
    rewrite !fmap_cons. fold (query (delete i db)).
    replace (f (models.mkToDo i t c)) with (models.mkToDo i t' c')
      by (unfold f; simpl; by rewrite decide_True).
    replace (f <$> query (delete i db)) with (query (delete i db)); [done|].
    rewrite <-(list_fmap_id (query (delete i db))) at 1.
    apply list_fmap_ext. intros n r Hr. unfold f.
    rewrite decide_False; [done|].
    eapply query_delete_ids, list_elem_of_lookup_2, Hr.
Qed.

Lemma listing_delete db i :
  order_by_id_desc (query (delete i db)) =
  filter (λ r, models.id r ≠ i) (order_by_id_desc (query db)).
Proof.
  apply sorted_unique.
  - rewrite order_by_id_desc_perm. apply NoDup_query_ids.
  - apply order_by_id_desc_sorted.
  - apply sorted_filter, order_by_id_desc_sorted.
  - rewrite !order_by_id_desc_perm.
    destruct (db !! i) as [[t c]|] eqn:H.
    + rewrite (query_delete db i t c H).
      rewrite filter_cons_False by (simpl; intros E; by apply E).
      symmetry. rewrite filter_all; [done|]. apply query_delete_ids.
    + rewrite delete_id by done. rewrite filter_all; [done|].
      intros r Hr%elem_of_query E. by rewrite E, H in Hr.
Qed.

End listing_changes.

(** X14. Complete and Edit-submit do not move a row in the listing: for
    the key of an existing row, the listing after the request is the
    listing from before with that row replaced, where it stands, by the
    row with the new values; the other rows stay where they are. *)
Theorem X14_update_in_place (db : Table) (todo_id : Z) t c task completed :
  db !! todo_id = Some (t, c) →
  order_by_id_desc (query (complete todo_id db).1) =
    (λ r, if decide (models.id r = todo_id)
          then models.mkToDo todo_id t true else r)
      <$> order_by_id_desc (query db) ∧
  order_by_id_desc (query (edit_submit todo_id task completed db).1) =
    (λ r, if decide (models.id r = todo_id)
          then models.mkToDo todo_id task (default false completed) else r)
      <$> order_by_id_desc (query db).
Proof.
  intros H. rewrite (complete_found _ _ _ _ H).
  rewrite (edit_submit_found _ _ _ _ task completed H). simpl.
  split; by apply (listing_insert_present db todo_id t c).
Qed.

Lemma X14_update_in_place_witness :
  let db : Table := <[2 := ("b", false)]> {[1 := ("a", false)]} in
  db !! 1 = Some ("a", false) ∧
  (order_by_id_desc (query (complete 1 db).1) =
     (λ r, if decide (models.id r = 1)
           then models.mkToDo 1 "a" true else r)
       <$> order_by_id_desc (query db) ∧
   order_by_id_desc (query (edit_submit 1 "c" None db).1) =
     (λ r, if decide (models.id r = 1)
           then models.mkToDo 1 "c" (default false None) else r)
       <$> order_by_id_desc (query db)).
Proof.
  split; [reflexivity|].
  apply (X14_update_in_place (<[2 := ("b", false)]> {[1 := ("a", false)]})
           1 "a" false "c" None).
  reflexivity.
Defined.

(** X15. The listing after Delete is the listing from before without the
    rows of the deleted key: the other rows are all there, in the order
    they had.  This holds whether the key had a row or not. *)
Theorem X15_delete_filters_listing (db : Table) (todo_id : Z) :
  order_by_id_desc (query (delete_todo todo_id db).1) =
  filter (λ r, models.id r ≠ todo_id) (order_by_id_desc (query db)).
Proof.
  rewrite <-listing_delete.
  destruct (db !! todo_id) as [[t c]|] eqn:H.
  - by rewrite (delete_todo_found _ _ _ _ H).
  - rewrite (delete_todo_missing _ _ H). simpl. by rewrite delete_id.
Qed.

(** ** The text of a row object *)

Lemma append_char_inj (s1 s2 : string) (a : Ascii.ascii) :
  s1 +:+ String a "" = s2 +:+ String a "" → s1 = s2.
Proof.
  revert s2. induction s1 as [|a1 s1 IH]; intros [|a2 s2]; simpl; intros E.
  - done.
  - injection E as _ E. by destruct s2.
  - injection E as _ E. by destruct s1.
  - injection E as -> E. f_equal. by apply IH.
Qed.

Example repr_12 :
  models.__repr__ (models.mkToDo 12 "Buy milk" false) = "<Todo 12>".
Proof. vm_compute. reflexivity. Qed.

(** X16. The text that [__repr__] gives tells the key and nothing else:
    two row objects have the same text exactly when they have the same
    [id], whatever their text and flag. *)
Theorem X16_repr_tells_the_key (r1 r2 : models.ToDo) :
  models.__repr__ r1 = models.__repr__ r2 ↔ models.id r1 = models.id r2.
Proof.
  unfold models.__repr__. split; [|by intros ->].
  simpl. intros E. injection E as E.
  apply append_char_inj in E. by apply (inj pretty).
Qed.

(** ** Runs of Add requests and the keys of the engine *)

Section engine_runs.

Implicit Types (db : Table) (tasks : list string) (k : Z) (n : nat).






End engine_runs.



